(** * The unused-standalone-imports validation rule

    A shallow embedding of
    [packages/compiler-cli/src/ngtsc/validation/src/rules/unused_standalone_imports_rule.ts]
    and the properties of the rule: which declared imports it flags, how it
    classifies references that may come from a shared array, where it anchors
    its diagnostic and what the diagnostic looks like. *)

From Stdlib Require Import String.
From stdpp Require Import base option list gmap strings.

Local Open Scope string_scope.
Local Open Scope list_scope.

(** ** The part of the TypeScript compiler API the rule relies on *)

Module ts.

(** Object identity of a syntax node ([===] on nodes, membership in a
    [Set<ts.Node>]). *)
Definition NodeId := positive.

(** [m.kind] of a modifier. *)
Inductive Modifier : Set :=
| ExportKeyword
| DefaultKeyword
| DeclareKeyword
| AbstractKeyword
| DecoratorModifier.

(** Syntax kinds the rule never tests for. *)
Inductive OtherKind : Set :=
| VariableDeclarationList
| VariableDeclaration
| ShorthandPropertyAssignment
| ObjectLiteralExpression
| ArrayLiteralExpression
| SpreadElement
| CallExpression
| Decorator
| FunctionExpression
| Block.

(** The [name] child of a property assignment. *)
Record PropertyName := mkName { name_id : NodeId; name_text : string }.

(** What a node is, with the children the rule reads. [modifiers] is
    [undefined] (here [None]) on a statement written without any. *)
Inductive Syntax :=
| SourceFile
| ClassDeclaration
| VariableStatement (modifiers : option (list Modifier))
| PropertyAssignment (name : PropertyName)
| Identifier (text : string)
| Other (kind : OtherKind).

(** A node together with its [parent] link.  The chain of parents of a node
    of a syntax tree is finite, which is what the inductive type says; the
    [parent] of the topmost node is [undefined], here [None]. *)
#[local] Unset Elimination Schemes.
Inductive Node := mkNode {
  id : NodeId;
  syntax : Syntax;
  parent : option Node
}.
#[local] Set Elimination Schemes.

(** Induction along the parent link. *)
Fixpoint Node_ind (P : Node -> Prop)
    (root : forall i s, P (mkNode i s None))
    (child : forall i s p, P p -> P (mkNode i s (Some p)))
    (n : Node) : P n :=
  match n with
  | mkNode i s None => root i s
  | mkNode i s (Some p) => child i s p (Node_ind P root child p)
  end.

(** [m.kind === ts.SyntaxKind.ExportKeyword] *)
Definition isExportKeyword (m : Modifier) : bool :=
  match m with ExportKeyword => true | _ => false end.

Definition isClassDeclaration (n : Node) : bool :=
  match syntax n with ClassDeclaration => true | _ => false end.

Definition isVariableStatement (n : Node) : bool :=
  match syntax n with VariableStatement _ => true | _ => false end.

Definition isPropertyAssignment (n : Node) : bool :=
  match syntax n with PropertyAssignment _ => true | _ => false end.

(** [assignment.name]: the key node, whose parent is the assignment. *)
Definition nameOf (assignment : Node) (nm : PropertyName) : Node :=
  mkNode (name_id nm) (Identifier (name_text nm)) (Some assignment).

(** [node.getSourceFile()]: the nearest node of kind [SourceFile] going up
    from [node], [undefined] for a node detached from any file. *)
Fixpoint getSourceFile (n : Node) : option Node :=
  match syntax n with
  | SourceFile => Some n
  | _ => match parent n with
         | Some p => getSourceFile p
         | None => None
         end
  end.

(** The proper ancestors of a node, nearest first. *)
Fixpoint ancestors (n : Node) : list Node :=
  match parent n with
  | Some p => p :: ancestors p
  | None => []
  end.

(** The node itself followed by its ancestors. *)
Definition enclosing (n : Node) : list Node := n :: ancestors n.

Inductive DiagnosticCategory : Set :=
| Warning
| Error
| Suggestion
| Message.

End ts.

(** ** Collaborators of the rule *)

(** Modelled from the spec: the [ErrorCode] enumeration of the diagnostics
    module is declared outside this file; the rule names one member of it. *)
Inductive ErrorCode : Set :=
| UNUSED_STANDALONE_IMPORTS
| OTHER_ERROR_CODE (n : N).

(** Modelled from the spec: related information is a pair of a node and a
    message ([makeRelatedInformation] of the diagnostics module). *)
Record RelatedInformation := makeRelatedInformation {
  related_node : ts.Node;
  related_message : string
}.

(** Modelled from the spec: a diagnostic has a code, an anchor node, a
    message, related entries ([undefined], here [None], when the caller passes
    none) and a severity ([makeDiagnostic] of the diagnostics module). *)
Record Diagnostic := makeDiagnostic {
  code : ErrorCode;
  anchor : ts.Node;
  message : string;
  related : option (list RelatedInformation);
  category : ts.DiagnosticCategory
}.

(** reflection's [ClassDeclaration<T> = T & {name: ts.Identifier}]: a
    declaration node that is known to carry a name. *)
Record ClassDeclaration := mkClass {
  declaration :> ts.Node;
  name : ts.Node
}.

(** The [Reference] of the imports module: the declaration it points to and
    its provenance queries.  The queries are implemented outside this file;
    they are fields here, so what is proved of the rule holds for every
    implementation of them. *)
Record Reference := mkReference {
  node : ClassDeclaration;
  getIdentityInExpression : ts.Node -> option ts.Node;
  getIdentityIn : option ts.Node -> option ts.Node;
  getOriginForDiagnostics : ts.Node -> ts.Node -> ts.Node
}.

(** typecheck's [TypeCheckableDirectiveMeta], the fields the rule reads. *)
Record TypeCheckableDirectiveMeta := mkDirectiveMeta {
  ref : Reference;
  isStandalone : bool;
  rawImports : option ts.Node;
  imports : option (list Reference)
}.

(** metadata's [PipeMeta], the fields the rule reads. *)
Record PipeMeta := mkPipeMeta {
  pipe_isStandalone : bool;
  pipe_name : string
}.

(** The methods of typecheck's [TemplateTypeChecker] the rule calls; each
    answers [null] (here [None]) when it has nothing for the class. *)
Record TemplateTypeChecker := mkTemplateTypeChecker {
  getDirectiveMetadata : ts.Node -> option TypeCheckableDirectiveMeta;
  getPipeMetadata : ts.Node -> option PipeMeta;
  getUsedDirectives : ts.Node -> option (list TypeCheckableDirectiveMeta);
  getUsedPipes : ts.Node -> option (list string)
}.

(** The option of [TypeCheckingConfig] the rule reads, as the string it is
    compared with. *)
Record TypeCheckingConfig := mkConfig {
  unusedStandaloneImports : string
}.

(** The two queries of imports' [ImportedSymbolsTracker] the rule asks of a
    source file. *)
Record ImportedSymbolsTracker := mkTracker {
  hasNamedImport : ts.Node -> string -> string -> bool;
  hasNamespaceImport : ts.Node -> string -> bool
}.

(** ** Methods that may throw *)

(** How a call ends: it returns a value, or it throws (the only exception
    the rule can raise is the [TypeError] of reading a property of
    [undefined]). *)
Inductive Outcome (A : Type) : Type :=
| Returns (value : A)
| Throws.

Arguments Returns {A} value.
Arguments Throws {A}.

#[global] Instance Outcome_ret : MRet Outcome := @Returns.

#[global] Instance Outcome_bind : MBind Outcome :=
  fun A B continue outcome =>
    match outcome with
    | Returns value => continue value
    | Throws => Throws
    end.

#[global] Instance Outcome_fmap : FMap Outcome :=
  fun A B f outcome =>
    match outcome with
    | Returns value => Returns (f value)
    | Throws => Throws
    end.

#[global] Instance Outcome_eq_dec {A} `{EqDecision A} : EqDecision (Outcome A).
Proof. solve_decision. Defined.

(** A [for (const item of items)] loop over a state, left as soon as a round
    throws. *)
Fixpoint forOf {State A : Type} (round : State -> A -> Outcome State)
    (state : State) (items : list A) : Outcome State :=
  match items with
  | [] => Returns state
  | item :: rest => state' ← round state item; forOf round state' rest
  end.

(** ** The rule *)

Record UnusedStandaloneImportsRule := mkRule {
  templateTypeChecker : TemplateTypeChecker;
  typeCheckingConfig : TypeCheckingConfig;
  importedSymbolsTracker : ImportedSymbolsTracker
}.

Section Rule.

Context (this : UnusedStandaloneImportsRule).

Definition shouldCheck (sourceFile : ts.Node) : bool :=
  negb (String.eqb (unusedStandaloneImports (typeCheckingConfig this)) "suppress")
  && (hasNamedImport (importedSymbolsTracker this) sourceFile "Component" "@angular/core"
      || hasNamespaceImport (importedSymbolsTracker this) sourceFile "@angular/core").

(** [!!modifiers?.some((m) => m.kind === ts.SyntaxKind.ExportKeyword)] *)
Definition hasExportModifier (modifiers : option (list ts.Modifier)) : bool :=
  match modifiers with
  | Some ms => existsb ts.isExportKeyword ms
  | None => false
  end.

(** The loop of [isPotentialSharedReference], entered with a node: go up from
    [current] to the first variable statement and answer whether it is
    exported.  The loop goes on while [current !== null], and the [parent] of
    the topmost node is [undefined], not [null]: when the parents run out the
    loop is entered once more and [ts.isVariableStatement(undefined)] reads
    [kind] of [undefined], which throws. *)
Fixpoint sharedFrom (current : ts.Node) : Outcome bool :=
  match ts.syntax current with
  | ts.VariableStatement modifiers => Returns (hasExportModifier modifiers)
  | _ => match ts.parent current with
         | Some p => sharedFrom p
         | None => Throws
         end
  end.

(** [getIdentityIn] answers [null] when the reference has no identifier in
    the file; only then is the loop skipped and [return true] reached. *)
Definition isPotentialSharedReference (reference : Reference) (rawImports : ts.Node)
  : Outcome bool :=
  match getIdentityInExpression reference rawImports with
  | Some _ => Returns false
  | None =>
      match getIdentityIn reference (ts.getSourceFile rawImports) with
      | Some current => sharedFrom current
      | None => Returns true
      end
  end.

(** The loop of [getDiagnosticNode]: the key of the first property assignment
    from [current] upwards, if there is one.  This loop goes on while
    [current] is truthy and so ends at the topmost node. *)
Fixpoint keyFrom (current : ts.Node) : option ts.Node :=
  match ts.syntax current with
  | ts.PropertyAssignment nm => Some (ts.nameOf current nm)
  | _ => match ts.parent current with
         | Some p => keyFrom p
         | None => None
         end
  end.

Definition getDiagnosticNode (importsExpression : ts.Node) : ts.Node :=
  match ts.parent importsExpression with
  | Some current => default importsExpression (keyFrom current)
  | None => importsExpression
  end.

(** [unused ??= []; unused.push(current)] *)
Definition push (unused : option (list Reference)) (current : Reference)
  : option (list Reference) :=
  Some (default [] unused ++ [current]).

(** One round of the loop of [getUnusedSymbols].  The conditions are joined
    by [&&]: [isPotentialSharedReference] is called only for a standalone
    declaration that the template does not use. *)
Definition visit (usedDirectives : gset ts.NodeId) (usedPipes : gset string)
    (rawImports : ts.Node) (unused : option (list Reference)) (current : Reference)
  : Outcome (option (list Reference)) :=
  let currentNode : ts.Node := node current in
  match getDirectiveMetadata (templateTypeChecker this) currentNode with
  | Some dirMeta =>
      if isStandalone dirMeta
         && negb (bool_decide (ts.id currentNode ∈ usedDirectives))
      then
        shared ← isPotentialSharedReference current rawImports;
        Returns (if negb shared then push unused current else unused)
      else Returns unused
  | None =>
      match getPipeMetadata (templateTypeChecker this) currentNode with
      | Some pipeMeta =>
          if pipe_isStandalone pipeMeta
             && negb (bool_decide (pipe_name pipeMeta ∈ usedPipes))
          then
            shared ← isPotentialSharedReference current rawImports;
            Returns (if negb shared then push unused current else unused)
          else Returns unused
      | None => Returns unused
      end
  end.

Definition getUnusedSymbols (metadata : TypeCheckableDirectiveMeta)
    (usedDirectives : gset ts.NodeId) (usedPipes : gset string)
  : Outcome (option (list Reference)) :=
  match imports metadata, rawImports metadata with
  | Some imports, Some rawImports =>
      forOf (visit usedDirectives usedPipes rawImports) None imports
  | _, _ => Returns None
  end.

(** [new Set(usedDirectives.map((dir) => dir.ref.node))]: a set of nodes,
    compared by identity. *)
Definition usedDirectiveNodes (usedDirectives : list TypeCheckableDirectiveMeta)
  : gset ts.NodeId :=
  list_to_set (map (fun dir => ts.id (node (ref dir))) usedDirectives).

(** The callback mapped over [unused] in [checkNode]. *)
Definition relatedInformationFor (rawImports : ts.Node) (ref : Reference)
  : RelatedInformation :=
  makeRelatedInformation
    (getOriginForDiagnostics ref rawImports (name (node ref))) "".

Definition checkNode (node : ts.Node) : Outcome (option Diagnostic) :=
  if negb (ts.isClassDeclaration node) then Returns None else
  match getDirectiveMetadata (templateTypeChecker this) node with
  | None => Returns None
  | Some metadata =>
      if negb (isStandalone metadata) then Returns None else
      match rawImports metadata, imports metadata with
      | Some rawImports, Some imports =>
          if bool_decide (length imports = 0) then Returns None else
          match getUsedDirectives (templateTypeChecker this) node,
                getUsedPipes (templateTypeChecker this) node with
          | Some usedDirectives, Some usedPipes =>
              unused ← getUnusedSymbols metadata
                         (usedDirectiveNodes usedDirectives)
                         (list_to_set usedPipes);
              match unused with
              | None => Returns None
              | Some unused =>
                  let category :=
                    if String.eqb (unusedStandaloneImports (typeCheckingConfig this)) "error"
                    then ts.Error else ts.Warning in
                  if bool_decide (length unused = length imports) then
                    Returns
                      (Some (makeDiagnostic UNUSED_STANDALONE_IMPORTS
                               (getDiagnosticNode rawImports)
                               "All imports are unused" None category))
                  else
                    Returns
                      (Some (makeDiagnostic UNUSED_STANDALONE_IMPORTS
                               (getDiagnosticNode rawImports)
                               "Imports array contains unused imports"
                               (Some (map (relatedInformationFor rawImports) unused))
                               category))
              end
          | _, _ => Returns None
          end
      | _, _ => Returns None
      end
  end.

End Rule.

(** ** The properties, in the words of the specification *)

(** [found] is the first node of [chain] that passes [test]. *)
Definition nearest (test : ts.Node -> bool) (chain : list ts.Node) (found : ts.Node) : Prop :=
  ∃ inner outer,
    chain = inner ++ found :: outer
    ∧ Forall (fun n => test n = false) inner
    ∧ test found = true.

(** No node of [chain] passes [test]. *)
Definition absent (test : ts.Node -> bool) (chain : list ts.Node) : Prop :=
  Forall (fun n => test n = false) chain.

(** A reference of the declared imports is flagged as unused. *)
Definition flagged (this : UnusedStandaloneImportsRule)
    (usedDirectives : gset ts.NodeId) (usedPipes : gset string)
    (rawImports : ts.Node) (reference : Reference) : Prop :=
  match getDirectiveMetadata (templateTypeChecker this) (node reference) with
  | Some dirMeta =>
      isStandalone dirMeta = true
      ∧ (ts.id (node reference) ∉ usedDirectives)
      ∧ isPotentialSharedReference reference rawImports = Returns false
  | None =>
      match getPipeMetadata (templateTypeChecker this) (node reference) with
      | Some pipeMeta =>
          pipe_isStandalone pipeMeta = true
          ∧ (pipe_name pipeMeta ∉ usedPipes)
          ∧ isPotentialSharedReference reference rawImports = Returns false
      | None => False
      end
  end.

#[global] Instance flagged_dec this usedDirectives usedPipes rawImports reference :
  Decision (flagged this usedDirectives usedPipes rawImports reference).
Proof.
  unfold flagged.
  destruct (getDirectiveMetadata _ _); [apply _|].
  destruct (getPipeMetadata _ _); apply _.
Defined.

(** The rule asks the heuristic about a reference of the declared imports
    (its declaration is standalone and the template does not use it) and the
    heuristic throws. *)
Definition stuck (this : UnusedStandaloneImportsRule)
    (usedDirectives : gset ts.NodeId) (usedPipes : gset string)
    (rawImports : ts.Node) (reference : Reference) : Prop :=
  match getDirectiveMetadata (templateTypeChecker this) (node reference) with
  | Some dirMeta =>
      isStandalone dirMeta = true
      ∧ (ts.id (node reference) ∉ usedDirectives)
      ∧ isPotentialSharedReference reference rawImports = Throws
  | None =>
      match getPipeMetadata (templateTypeChecker this) (node reference) with
      | Some pipeMeta =>
          pipe_isStandalone pipeMeta = true
          ∧ (pipe_name pipeMeta ∉ usedPipes)
          ∧ isPotentialSharedReference reference rawImports = Throws
      | None => False
      end
  end.

#[global] Instance stuck_dec this usedDirectives usedPipes rawImports reference :
  Decision (stuck this usedDirectives usedPipes rawImports reference).
Proof.
  unfold stuck.
  destruct (getDirectiveMetadata _ _); [apply _|].
  destruct (getPipeMetadata _ _); apply _.
Defined.

(** The unused references as the specification words them: the flagged
    references in declaration order, [null] when there is none. *)
Definition unusedAsSpecified (this : UnusedStandaloneImportsRule)
    (usedDirectives : gset ts.NodeId) (usedPipes : gset string)
    (rawImports : ts.Node) (importReferences : list Reference)
  : option (list Reference) :=
  match filter (flagged this usedDirectives usedPipes rawImports) importReferences with
  | [] => None
  | unused => Some unused
  end.

(** A variable statement carries the export modifier. *)
Definition carriesExport (modifiers : option (list ts.Modifier)) : Prop :=
  ∃ ms, modifiers = Some ms ∧ ts.ExportKeyword ∈ ms.

(** The heuristic as the specification words it: from the identity node
    outwards the first variable statement decides, and a walk that exhausts
    the enclosing nodes answers "shared". *)
Fixpoint sharedFromAsSpecified (current : ts.Node) : bool :=
  match ts.syntax current with
  | ts.VariableStatement modifiers => hasExportModifier modifiers
  | _ => match ts.parent current with
         | Some p => sharedFromAsSpecified p
         | None => true
         end
  end.

Definition sharedAsSpecified (reference : Reference) (rawImports : ts.Node) : bool :=
  match getIdentityInExpression reference rawImports with
  | Some _ => false
  | None =>
      match getIdentityIn reference (ts.getSourceFile rawImports) with
      | Some origin => sharedFromAsSpecified origin
      | None => true
      end
  end.

(** The anchor as the specification words it: the key of the nearest
    property assignment, going up from [current], whose key reads
    "imports". *)
Fixpoint importsKeyFrom (current : ts.Node) : option ts.Node :=
  let further :=
    match ts.parent current with
    | Some p => importsKeyFrom p
    | None => None
    end in
  match ts.syntax current with
  | ts.PropertyAssignment nm =>
      if String.eqb (ts.name_text nm) "imports"
      then Some (ts.nameOf current nm)
      else further
  | _ => further
  end.

Definition anchorAsSpecified (importsExpression : ts.Node) : ts.Node :=
  match ts.parent importsExpression with
  | Some current => default importsExpression (importsKeyFrom current)
  | None => importsExpression
  end.

(** ** Source files to run the rule on

    [directives.ts] declares the standalone directives [A], [B] and [C].
    [app.ts]:
<<
    import {A, B, C} from './directives';
    @Component({imports: [A, B, C]}) class Cmp {}       // the template uses B
    export const outer = () => {
      const local = [A];
    };
    export const SHARED = [B];
    @Directive() class D {}
    export const LOCALS = [D];
    const o = {foo: function () { @Component({imports}) class Nested {} }};
>> *)

Module Fixture.

Local Open Scope positive_scope.

Definition child (i : ts.NodeId) (s : ts.Syntax) (p : ts.Node) : ts.Node :=
  ts.mkNode i s (Some p).

(** [app.ts] and [directives.ts]. *)
Definition file : ts.Node := ts.mkNode 1 ts.SourceFile None.
Definition lib : ts.Node := ts.mkNode 2 ts.SourceFile None.

Definition classIn (owner : ts.Node) (i nameId : ts.NodeId) (text : string)
  : ClassDeclaration :=
  let d := child i ts.ClassDeclaration owner in
  mkClass d (child nameId (ts.Identifier text) d).

Definition classA := classIn lib 10 11 "A".
Definition classB := classIn lib 12 13 "B".
Definition classC := classIn lib 14 15 "C".

(** [D] is declared in [app.ts] itself. *)
Definition classD := classIn file 80 81 "D".

(** The decorated class [Cmp] and its [imports] array. *)
Definition cmp := child 20 ts.ClassDeclaration file.
Definition cmpDecorator := child 21 (ts.Other ts.Decorator) cmp.
Definition cmpCall := child 22 (ts.Other ts.CallExpression) cmpDecorator.
Definition cmpObject := child 23 (ts.Other ts.ObjectLiteralExpression) cmpCall.
Definition importsKey := ts.mkName 25 "imports".
Definition cmpImports := child 24 (ts.PropertyAssignment importsKey) cmpObject.
Definition cmpArray := child 26 (ts.Other ts.ArrayLiteralExpression) cmpImports.
Definition idA := child 30 (ts.Identifier "A") cmpArray.
Definition idB := child 31 (ts.Identifier "B") cmpArray.
Definition idC := child 32 (ts.Identifier "C") cmpArray.

(** [export const outer = () => { const local = [A]; }] *)
Definition outerStatement := child 60 (ts.VariableStatement (Some [ts.ExportKeyword])) file.
Definition outerList := child 61 (ts.Other ts.VariableDeclarationList) outerStatement.
Definition outerDeclaration := child 62 (ts.Other ts.VariableDeclaration) outerList.
Definition outerFunction := child 63 (ts.Other ts.FunctionExpression) outerDeclaration.
Definition outerBlock := child 64 (ts.Other ts.Block) outerFunction.
Definition localStatement := child 65 (ts.VariableStatement None) outerBlock.
Definition localList := child 66 (ts.Other ts.VariableDeclarationList) localStatement.
Definition localDeclaration := child 67 (ts.Other ts.VariableDeclaration) localList.
Definition localArray := child 68 (ts.Other ts.ArrayLiteralExpression) localDeclaration.
Definition localA := child 69 (ts.Identifier "A") localArray.

(** [const o = {foo: function () { @Component({imports}) class Nested {} }}] *)
Definition oStatement := child 40 (ts.VariableStatement None) file.
Definition oList := child 41 (ts.Other ts.VariableDeclarationList) oStatement.
Definition oDeclaration := child 42 (ts.Other ts.VariableDeclaration) oList.
Definition oObject := child 43 (ts.Other ts.ObjectLiteralExpression) oDeclaration.
Definition fooKey := ts.mkName 45 "foo".
Definition fooAssignment := child 44 (ts.PropertyAssignment fooKey) oObject.
Definition fooFunction := child 46 (ts.Other ts.FunctionExpression) fooAssignment.
Definition fooBlock := child 47 (ts.Other ts.Block) fooFunction.
Definition nested := child 48 ts.ClassDeclaration fooBlock.
Definition nestedDecorator := child 49 (ts.Other ts.Decorator) nested.
Definition nestedCall := child 50 (ts.Other ts.CallExpression) nestedDecorator.
Definition nestedObject := child 51 (ts.Other ts.ObjectLiteralExpression) nestedCall.
Definition nestedShorthand := child 52 (ts.Other ts.ShorthandPropertyAssignment) nestedObject.
Definition nestedImports := child 53 (ts.Identifier "imports") nestedShorthand.

(** [export const SHARED = [B]] *)
Definition sharedStatement := child 70 (ts.VariableStatement (Some [ts.ExportKeyword])) file.
Definition sharedList := child 71 (ts.Other ts.VariableDeclarationList) sharedStatement.
Definition sharedDeclaration := child 72 (ts.Other ts.VariableDeclaration) sharedList.
Definition sharedArray := child 73 (ts.Other ts.ArrayLiteralExpression) sharedDeclaration.
Definition sharedB := child 74 (ts.Identifier "B") sharedArray.

(** [export const LOCALS = [D]] *)
Definition localsStatement := child 82 (ts.VariableStatement (Some [ts.ExportKeyword])) file.
Definition localsList := child 83 (ts.Other ts.VariableDeclarationList) localsStatement.
Definition localsDeclaration := child 84 (ts.Other ts.VariableDeclaration) localsList.
Definition localsArray := child 85 (ts.Other ts.ArrayLiteralExpression) localsDeclaration.
Definition localsD := child 86 (ts.Identifier "D") localsArray.

(** A reference that remembers the identifiers it is known by, the name of
    its declaration first and then those it was reached through, and answers
    the provenance queries from them. *)
Definition sameFile (context : option ts.Node) (i : ts.Node) : bool :=
  bool_decide (ts.id <$> ts.getSourceFile i = ts.id <$> context).

Definition within (expr i : ts.Node) : bool :=
  bool_decide (ts.id expr ∈ map ts.id (ts.enclosing i)).

Definition reference (cls : ClassDeclaration) (reached : list ts.Node) : Reference :=
  let identifiers := name cls :: reached in
  let inExpression expr :=
    find (fun i => sameFile (ts.getSourceFile expr) i && within expr i) identifiers in
  mkReference cls inExpression
    (fun context => find (sameFile context) identifiers)
    (fun container fallback => default fallback (inExpression container)).

Definition refA := reference classA [idA].
Definition refB := reference classB [idB].
Definition refC := reference classC [idC].

(** [A] as it is reached through [local]. *)
Definition refLocalA := reference classA [localA].

(** [B] as it is reached through [SHARED]. *)
Definition refSharedB := reference classB [sharedB].

(** [D] as it is reached through [LOCALS]. *)
Definition refLocalsD := reference classD [localsD].

Definition directive (r : Reference) : TypeCheckableDirectiveMeta :=
  mkDirectiveMeta r true None None.

Definition cmpMeta : TypeCheckableDirectiveMeta :=
  mkDirectiveMeta (reference (mkClass cmp (child 27 (ts.Identifier "Cmp") cmp)) [])
    true (Some cmpArray) (Some [refA; refB; refC]).

(** [Cmp] had it been declared with [imports: [A, ...SHARED]]. *)
Definition spreadMeta : TypeCheckableDirectiveMeta :=
  mkDirectiveMeta (ref cmpMeta) true (Some cmpArray) (Some [refA; refSharedB]).

(** [Cmp] had it been declared with [imports: [A, ...LOCALS]]. *)
Definition localsMeta : TypeCheckableDirectiveMeta :=
  mkDirectiveMeta (ref cmpMeta) true (Some cmpArray) (Some [refA; refLocalsD]).

(** The checker of a program in which [Cmp] is declared as [declared] says
    and its template uses [used]. *)
Definition checkerFor (declared : TypeCheckableDirectiveMeta)
    (used : list TypeCheckableDirectiveMeta) : TemplateTypeChecker :=
  mkTemplateTypeChecker
    (fun n =>
       if bool_decide (ts.id n = 20) then Some declared
       else if bool_decide (ts.id n = 10) then Some (directive refA)
       else if bool_decide (ts.id n = 12) then Some (directive refB)
       else if bool_decide (ts.id n = 14) then Some (directive refC)
       else if bool_decide (ts.id n = 80) then Some (directive refLocalsD)
       else None)
    (fun _ => None)
    (fun n => if bool_decide (ts.id n = 20) then Some used else None)
    (fun n => if bool_decide (ts.id n = 20) then Some [] else None).

(** The checker of a program in which the template of [Cmp] uses [used]. *)
Definition checkerUsing (used : list TypeCheckableDirectiveMeta) : TemplateTypeChecker :=
  checkerFor cmpMeta used.

Definition tracker : ImportedSymbolsTracker :=
  mkTracker
    (fun f name module => bool_decide (ts.id f = 1) && String.eqb name "Component"
                          && String.eqb module "@angular/core")
    (fun _ _ => false).

Definition ruleUsing (used : list TypeCheckableDirectiveMeta) (configured : string)
  : UnusedStandaloneImportsRule :=
  mkRule (checkerUsing used) (mkConfig configured) tracker.

(** The template of [Cmp] uses [B] only. *)
Definition rule : string -> UnusedStandaloneImportsRule :=
  ruleUsing [directive refB].

(** The rule over [Cmp] declared with [imports: [A, ...LOCALS]], its template
    using nothing. *)
Definition ruleOverLocals : UnusedStandaloneImportsRule :=
  mkRule (checkerFor localsMeta []) (mkConfig "warn") tracker.

End Fixture.

(** ** Walking up the parent links *)

Section Walks.

Lemma find_nearest test chain found :
  nearest test chain found -> find test chain = Some found.
Proof.
  intros (inner & outer & -> & Hinner & Hfound).
  induction Hinner as [|n inner Hn _ IH]; simpl.
  - by rewrite Hfound.
  - by rewrite Hn.
Qed.

Lemma find_absent test chain :
  absent test chain -> find test chain = None.
Proof.
  induction 1 as [|n chain Hn _ IH]; simpl; [done|].
  by rewrite Hn.
Qed.

Lemma enclosing_child i s p :
  ts.enclosing (ts.mkNode i s (Some p)) = ts.mkNode i s (Some p) :: ts.enclosing p.
Proof. reflexivity. Qed.

Lemma ancestors_parent n p :
  ts.parent n = Some p -> ts.ancestors n = ts.enclosing p.
Proof. destruct n as [i s q]; simpl; by intros ->. Qed.

Lemma ancestors_root n :
  ts.parent n = None -> ts.ancestors n = [].
Proof. destruct n as [i s q]; simpl; by intros ->. Qed.

(** The walk of [isPotentialSharedReference] stops at the first variable
    statement of the chain and reads its modifiers only; it throws when the
    chain has none. *)
Lemma sharedFrom_find current :
  sharedFrom current =
    match find ts.isVariableStatement (ts.enclosing current) with
    | Some statement =>
        match ts.syntax statement with
        | ts.VariableStatement modifiers => Returns (hasExportModifier modifiers)
        | _ => Throws
        end
    | None => Throws
    end.
Proof.
  induction current as [i s|i s p IH] using ts.Node_ind.
  - by destruct s.
  - rewrite enclosing_child.
    destruct s; simpl; try exact IH; reflexivity.
Qed.

(** The walk of [getDiagnosticNode] stops at the first property assignment of
    the chain and returns its key. *)
Lemma keyFrom_find current :
  keyFrom current =
    match find ts.isPropertyAssignment (ts.enclosing current) with
    | Some assignment =>
        match ts.syntax assignment with
        | ts.PropertyAssignment nm => Some (ts.nameOf assignment nm)
        | _ => None
        end
    | None => None
    end.
Proof.
  induction current as [i s|i s p IH] using ts.Node_ind.
  - by destruct s.
  - rewrite enclosing_child.
    destruct s; simpl; try exact IH; reflexivity.
Qed.

Lemma hasExportModifier_carries modifiers :
  hasExportModifier modifiers = true <-> carriesExport modifiers.
Proof.
  unfold carriesExport. destruct modifiers as [ms|]; simpl.
  - rewrite existsb_exists. split.
    + intros (m & Hin & Hm). exists ms. split; [done|].
      destruct m; try discriminate. by apply list_elem_of_In.
    + intros (ms' & [= <-] & Hin). exists ts.ExportKeyword.
      split; [by apply list_elem_of_In | done].
  - split; [done|]. by intros (ms & ? & _).
Qed.

Lemma sharedFrom_throws_iff current :
  sharedFrom current = Throws <-> absent ts.isVariableStatement (ts.enclosing current).
Proof.
  rewrite sharedFrom_find. split.
  - destruct (find _ _) as [statement|] eqn:Hfind.
    + apply find_some in Hfind as [_ Hstatement].
      unfold ts.isVariableStatement in Hstatement.
      by destruct (ts.syntax statement).
    + intros _. apply Forall_forall. intros n Hn%list_elem_of_In.
      by apply (find_none _ _ Hfind).
  - intros Habsent. by rewrite (find_absent _ _ Habsent).
Qed.

End Walks.

(** ** The anchor of the diagnostic *)

(** X1: What [getDiagnosticNode] computes: the key of the nearest property
    assignment among the ancestors of the raw-imports expression, whatever
    that key reads; when no ancestor is a property assignment, the
    raw-imports expression itself. *)
Lemma getDiagnosticNode_nearest_assignment (importsExpression : ts.Node) :
  (∀ assignment nm,
     nearest ts.isPropertyAssignment (ts.ancestors importsExpression) assignment ->
     ts.syntax assignment = ts.PropertyAssignment nm ->
     getDiagnosticNode importsExpression = ts.nameOf assignment nm)
  ∧ (absent ts.isPropertyAssignment (ts.ancestors importsExpression) ->
     getDiagnosticNode importsExpression = importsExpression).
Proof.
  unfold getDiagnosticNode.
  destruct (ts.parent importsExpression) as [current|] eqn:Hparent.
  - rewrite (ancestors_parent _ _ Hparent), keyFrom_find. split.
    + intros assignment nm Hnear Hsyntax.
      by rewrite (find_nearest _ _ _ Hnear), Hsyntax.
    + intros Habsent. by rewrite (find_absent _ _ Habsent).
  - rewrite (ancestors_root _ Hparent). split; [|done].
    intros assignment nm (inner & outer & Hchain & _). by destruct inner.
Qed.

Example getDiagnosticNode_imports_key :
  getDiagnosticNode Fixture.cmpArray = ts.nameOf Fixture.cmpImports Fixture.importsKey.
Proof.
  apply (proj1 (getDiagnosticNode_nearest_assignment Fixture.cmpArray)).
  - exists [], [Fixture.cmpObject; Fixture.cmpCall; Fixture.cmpDecorator;
                Fixture.cmp; Fixture.file].
    split; [reflexivity|]. split; [constructor | reflexivity].
  - reflexivity.
Defined.

(** C2: the anchor should be the key of the nearest enclosing property
    assignment whose key reads "imports", else the raw-imports expression.
    For [imports] written in shorthand inside the value of a property [foo]
    no ancestor is such an assignment, so the anchor should be the raw-imports
    expression; the rule stops at the first property assignment it meets and
    anchors at the key [foo]. *)
Theorem getDiagnosticNode_not_imports_key :
  getDiagnosticNode Fixture.nestedImports ≠ anchorAsSpecified Fixture.nestedImports
  ∧ getDiagnosticNode Fixture.nestedImports = ts.nameOf Fixture.fooAssignment Fixture.fooKey
  ∧ anchorAsSpecified Fixture.nestedImports = Fixture.nestedImports.
Proof.
  split; [|split; reflexivity].
  intros H. apply (f_equal ts.id) in H. vm_compute in H. discriminate H.
Qed.

(** ** The shared-reference heuristic *)

(** C3: a reference whose walk exhausts the enclosing nodes without meeting a
    variable statement should be classified shared.  For [D], declared in the
    file of the component and reached through [LOCALS], the walk starts at the
    name of the class, leaves the file without meeting a variable statement,
    and the rule throws instead of answering. *)
Theorem isPotentialSharedReference_throws_off_the_root :
  getIdentityInExpression Fixture.refLocalsD Fixture.cmpArray = None
  ∧ getIdentityIn Fixture.refLocalsD (ts.getSourceFile Fixture.cmpArray)
    = Some (name Fixture.classD)
  ∧ absent ts.isVariableStatement (ts.enclosing (name Fixture.classD))
  ∧ sharedAsSpecified Fixture.refLocalsD Fixture.cmpArray = true
  ∧ isPotentialSharedReference Fixture.refLocalsD Fixture.cmpArray = Throws.
Proof.
  split; [reflexivity|]. split; [reflexivity|].
  split; [repeat constructor|]. split; reflexivity.
Qed.

(** X10: the heuristic throws exactly for a reference that is not written in
    the raw-imports expression and has an identity node in the file that no
    variable statement encloses; for every other reference it returns. *)
Theorem isPotentialSharedReference_throws_iff (reference : Reference) (rawImports : ts.Node) :
  isPotentialSharedReference reference rawImports = Throws
  <-> getIdentityInExpression reference rawImports = None
      ∧ ∃ origin,
          getIdentityIn reference (ts.getSourceFile rawImports) = Some origin
          ∧ absent ts.isVariableStatement (ts.enclosing origin).
Proof.
  unfold isPotentialSharedReference.
  destruct (getIdentityInExpression reference rawImports) as [identity|].
  { split; [done|]. by intros [? _]. }
  destruct (getIdentityIn reference _) as [origin|].
  - rewrite sharedFrom_throws_iff. split.
    + intros Habsent. split; [done|]. by exists origin.
    + by intros (_ & origin' & [= <-] & Habsent).
  - split; [done|]. by intros (_ & origin & ? & _).
Qed.

Lemma isPotentialSharedReference_throws_iff_witness :
  isPotentialSharedReference Fixture.refLocalsD Fixture.cmpArray = Throws.
Proof.
  apply isPotentialSharedReference_throws_iff.
  split; [reflexivity|]. exists (name Fixture.classD).
  split; [reflexivity | repeat constructor].
Defined.

(** C10: for a reference that is not spelled in the raw-imports expression
    and has an identity node in the file, the first variable statement going
    outwards from that node decides alone: the answer is read off its
    modifiers, whatever encloses it. *)
Theorem innermost_variable_statement_decides
    (reference : Reference) (rawImports origin : ts.Node)
    (inner : list ts.Node) (statement : ts.Node)
    (modifiers : option (list ts.Modifier)) (outer : list ts.Node) :
  getIdentityInExpression reference rawImports = None ->
  getIdentityIn reference (ts.getSourceFile rawImports) = Some origin ->
  ts.enclosing origin = inner ++ statement :: outer ->
  Forall (fun n => ts.isVariableStatement n = false) inner ->
  ts.syntax statement = ts.VariableStatement modifiers ->
  isPotentialSharedReference reference rawImports = Returns (hasExportModifier modifiers).
Proof.
  intros Hliteral Horigin Hchain Hinner Hsyntax.
  unfold isPotentialSharedReference.
  rewrite Hliteral, Horigin, sharedFrom_find.
  assert (nearest ts.isVariableStatement (ts.enclosing origin) statement) as Hnear.
  { exists inner, outer. repeat split; [done..|].
    unfold ts.isVariableStatement. by rewrite Hsyntax. }
  by rewrite (find_nearest _ _ _ Hnear), Hsyntax.
Qed.

(** The local, non-exported [const local = [A]] decides "not shared",
    although it sits inside the exported [outer]. *)
Lemma innermost_variable_statement_decides_witness :
  In Fixture.outerStatement
     [Fixture.outerBlock; Fixture.outerFunction; Fixture.outerDeclaration;
      Fixture.outerList; Fixture.outerStatement; Fixture.file]
  ∧ ts.syntax Fixture.outerStatement = ts.VariableStatement (Some [ts.ExportKeyword])
  ∧ isPotentialSharedReference Fixture.refLocalA Fixture.cmpArray = Returns false.
Proof.
  split; [simpl; tauto|]. split; [reflexivity|].
  apply (innermost_variable_statement_decides
           Fixture.refLocalA Fixture.cmpArray Fixture.localA
           [Fixture.localA; Fixture.localArray; Fixture.localDeclaration; Fixture.localList]
           Fixture.localStatement None
           [Fixture.outerBlock; Fixture.outerFunction; Fixture.outerDeclaration;
            Fixture.outerList; Fixture.outerStatement; Fixture.file]).
  - reflexivity.
  - reflexivity.
  - reflexivity.
  - repeat constructor.
  - reflexivity.
Defined.

(** ** The unused references *)

Section Lists.

Context {A : Type} (P : A -> Prop) `{!∀ x, Decision (P x)}.

Lemma filter_nil_none (l : list A) :
  filter P l = [] <-> ∀ x, x ∈ l -> ¬ P x.
Proof.
  induction l as [|x l IH]; simpl.
  - split; [|done]. intros _ x Hx. by apply elem_of_nil in Hx.
  - rewrite filter_cons. destruct (decide (P x)) as [Hx|Hx].
    + split; [done|]. intros Hnone. destruct (Hnone x); [left | done].
    + rewrite IH. split.
      * intros Hnone y [->|Hy]%elem_of_cons; [done | by apply Hnone].
      * intros Hnone y Hy. apply Hnone. by right.
Qed.

Lemma filter_length_all (l : list A) :
  length (filter P l) = length l <-> Forall P l.
Proof.
  induction l as [|x l IH]; simpl.
  - split; [constructor | done].
  - rewrite filter_cons, Forall_cons.
    destruct (decide (P x)) as [Hx|Hx]; simpl.
    + rewrite <- IH. split; [by intros [= ->] | by intros [_ ->]].
    + pose proof (length_filter P l). split; [lia | by intros [? _]].
Qed.

End Lists.

Section Unused.

Context (this : UnusedStandaloneImportsRule).
Context (usedDirectives : gset ts.NodeId) (usedPipes : gset string).
Context (rawImports : ts.Node).

Local Notation "'flag'" := (flagged this usedDirectives usedPipes rawImports).
Local Notation "'halt'" := (stuck this usedDirectives usedPipes rawImports).
Local Notation "'round'" := (visit this usedDirectives usedPipes rawImports).

(** A reference is not both flagged and stuck. *)
Lemma flagged_not_stuck reference : flag reference -> ¬ halt reference.
Proof.
  unfold flagged, stuck.
  destruct (getDirectiveMetadata _ _); [|destruct (getPipeMetadata _ _); [|done]];
    intros (_ & _ & Hreturns) (_ & _ & Hthrows); congruence.
Qed.

(** One round of the loop throws on a stuck reference; otherwise it pushes
    the current reference exactly when it is flagged. *)
Lemma visit_outcome unused current :
  round unused current =
    if decide (halt current) then Throws
    else Returns (if decide (flag current) then push unused current else unused).
Proof.
  destruct (decide (halt current)) as [Hhalt|Hhalt];
    [|destruct (decide (flag current)) as [Hflag|Hflag]];
    unfold flagged, stuck in *; unfold visit;
    destruct (getDirectiveMetadata _ _) as [dirMeta|];
    try (destruct (getPipeMetadata _ _) as [pipeMeta|]; [|done]).
  - destruct Hhalt as (-> & Hused & ->). by rewrite bool_decide_eq_false_2.
  - destruct Hhalt as (-> & Hused & ->). by rewrite bool_decide_eq_false_2.
  - destruct Hflag as (-> & Hused & ->). by rewrite bool_decide_eq_false_2.
  - destruct Hflag as (-> & Hused & ->). by rewrite bool_decide_eq_false_2.
  - destruct (isStandalone dirMeta); [|done].
    case_bool_decide; [done|]. simpl.
    destruct (isPotentialSharedReference current rawImports) as [[|]|];
      [done | by destruct Hflag | by destruct Hhalt].
  - destruct (pipe_isStandalone pipeMeta); [|done].
    case_bool_decide; [done|]. simpl.
    destruct (isPotentialSharedReference current rawImports) as [[|]|];
      [done | by destruct Hflag | by destruct Hhalt].
Qed.

(** The loop throws when a reference is stuck; otherwise it appends the
    flagged references, in order, to what it starts from, and leaves that
    untouched when there are none. *)
Lemma forOf_visit imports unused :
  forOf round unused imports =
    if decide (Exists halt imports) then Throws
    else Returns match filter flag imports with
                 | [] => unused
                 | found => Some (default [] unused ++ found)
                 end.
Proof.
  revert unused. induction imports as [|current imports IH]; intros unused.
  { rewrite decide_False; [done|]. by intros ?%Exists_nil. }
  change (forOf round unused (current :: imports))
    with (round unused current ≫= fun state => forOf round state imports).
  rewrite visit_outcome.
  destruct (decide (halt current)) as [Hhalt|Hhalt].
  { rewrite decide_True; [done|]. by left. }
  change (forOf round (if decide (flag current) then push unused current else unused)
            imports
          = if decide (Exists halt (current :: imports)) then Throws
            else Returns match filter flag (current :: imports) with
                         | [] => unused
                         | found => Some (default [] unused ++ found)
                         end).
  rewrite IH, filter_cons.
  destruct (decide (Exists halt imports)) as [Hlater|Hlater].
  { rewrite (decide_True (P := Exists halt (current :: imports))); [done|]. by right. }
  rewrite (decide_False (P := Exists halt (current :: imports)))
    by (by intros [?|?]%Exists_cons).
  destruct (decide (flag current)) as [Hflag|Hflag]; [|done].
  unfold push. simpl.
  destruct (filter flag imports) as [|next found]; [done|].
  by rewrite <- app_assoc.
Qed.

End Unused.

(** [getUnusedSymbols] on any metadata. *)
Lemma getUnusedSymbols_eq this metadata usedDirectives usedPipes :
  getUnusedSymbols this metadata usedDirectives usedPipes =
    match imports metadata, rawImports metadata with
    | Some importReferences, Some rawImportsExpression =>
        if decide (Exists (stuck this usedDirectives usedPipes rawImportsExpression)
                     importReferences)
        then Throws
        else Returns (unusedAsSpecified this usedDirectives usedPipes
                        rawImportsExpression importReferences)
    | _, _ => Returns None
    end.
Proof.
  unfold getUnusedSymbols, unusedAsSpecified.
  destruct (imports metadata) as [refs|]; [|done].
  destruct (rawImports metadata) as [raw|]; [|done].
  rewrite forOf_visit. case_decide; [done|]. by destruct (filter _ _).
Qed.

(** What [getUnusedSymbols] returns, when it returns a list, is the flagged
    references. *)
Lemma getUnusedSymbols_Some this metadata usedDirectives usedPipes unused :
  getUnusedSymbols this metadata usedDirectives usedPipes = Returns (Some unused) ->
  ∃ importReferences rawImportsExpression,
    imports metadata = Some importReferences
    ∧ rawImports metadata = Some rawImportsExpression
    ∧ ¬ Exists (stuck this usedDirectives usedPipes rawImportsExpression) importReferences
    ∧ unused ≠ []
    ∧ unused = filter (flagged this usedDirectives usedPipes rawImportsExpression)
                 importReferences.
Proof.
  rewrite getUnusedSymbols_eq. unfold unusedAsSpecified.
  destruct (imports metadata) as [refs|]; [|done].
  destruct (rawImports metadata) as [raw|]; [|done].
  case_decide as Hstuck; [done|].
  destruct (filter _ _) as [|first found] eqn:Hfilter; [done|].
  intros [= <-]. exists refs, raw. by rewrite Hfilter.
Qed.

(** C1: [getUnusedSymbols] should return the flagged references of
    [importReferences] in declaration order, and [null] exactly when none is
    flagged.  For [imports: [A, ...LOCALS]], with neither directive used, that
    is the sequence holding [A]; the rule asks the heuristic about [D], the
    heuristic throws, and [getUnusedSymbols] returns nothing at all. *)
Theorem getUnusedSymbols_throws_on_local_class :
  unusedAsSpecified (Fixture.rule "warn") ∅ ∅ Fixture.cmpArray
    [Fixture.refA; Fixture.refLocalsD] = Some [Fixture.refA]
  ∧ getUnusedSymbols (Fixture.rule "warn") Fixture.localsMeta ∅ ∅ = Throws.
Proof. split; vm_compute; reflexivity. Qed.

(** X11: with the import references and the raw-imports expression present,
    [getUnusedSymbols] throws exactly when some declared import is stuck (the
    heuristic is asked about it and throws); otherwise it returns the flagged
    references in declaration order, [null] when there is none. *)
Theorem getUnusedSymbols_outcome
    (this : UnusedStandaloneImportsRule) (metadata : TypeCheckableDirectiveMeta)
    (usedDirectives : gset ts.NodeId) (usedPipes : gset string)
    (importReferences : list Reference) (rawImportsExpression : ts.Node) :
  imports metadata = Some importReferences ->
  rawImports metadata = Some rawImportsExpression ->
  (getUnusedSymbols this metadata usedDirectives usedPipes = Throws
   <-> ∃ reference,
         reference ∈ importReferences
         ∧ stuck this usedDirectives usedPipes rawImportsExpression reference)
  ∧ ((∀ reference,
        reference ∈ importReferences ->
        ¬ stuck this usedDirectives usedPipes rawImportsExpression reference) ->
     getUnusedSymbols this metadata usedDirectives usedPipes =
       Returns match filter (flagged this usedDirectives usedPipes rawImportsExpression)
                            importReferences with
               | [] => None
               | unused => Some unused
               end).
Proof.
  intros Himports Hraw. rewrite getUnusedSymbols_eq, Himports, Hraw.
  unfold unusedAsSpecified. rewrite <- Exists_exists.
  destruct (decide (Exists _ importReferences)) as [Hstuck|Hstuck].
  - split; [done|]. intros Hnone. exfalso.
    apply Exists_exists in Hstuck as (reference & Hin & Hhalt).
    by apply (Hnone reference).
  - split; [by split|done].
Qed.

Lemma getUnusedSymbols_outcome_witness :
  getUnusedSymbols (Fixture.rule "warn") Fixture.localsMeta ∅ ∅ = Throws.
Proof.
  apply (getUnusedSymbols_outcome (Fixture.rule "warn") Fixture.localsMeta ∅ ∅
           [Fixture.refA; Fixture.refLocalsD] Fixture.cmpArray eq_refl eq_refl).
  exists Fixture.refLocalsD. split; [right; left|].
  vm_compute. repeat split. intros Hused. discriminate Hused.
Defined.

(** ** The diagnostic *)

Section CheckNode.

Context (this : UnusedStandaloneImportsRule).

Local Notation "'checker'" := (templateTypeChecker this).
Local Notation "'configured'" := (unusedStandaloneImports (typeCheckingConfig this)).

(** Every diagnostic comes out of the same run: all preconditions hold, the
    unused references are returned, and the diagnostic is one of the two
    variants. *)
Lemma checkNode_Some_inv node d :
  checkNode this node = Returns (Some d) ->
  ∃ metadata rawImportsExpression importReferences usedDirectives usedPipes unused,
    ts.isClassDeclaration node = true
    ∧ getDirectiveMetadata checker node = Some metadata
    ∧ isStandalone metadata = true
    ∧ rawImports metadata = Some rawImportsExpression
    ∧ imports metadata = Some importReferences
    ∧ importReferences ≠ []
    ∧ getUsedDirectives checker node = Some usedDirectives
    ∧ getUsedPipes checker node = Some usedPipes
    ∧ getUnusedSymbols this metadata (usedDirectiveNodes usedDirectives)
        (list_to_set usedPipes) = Returns (Some unused)
    ∧ code d = UNUSED_STANDALONE_IMPORTS
    ∧ anchor d = getDiagnosticNode rawImportsExpression
    ∧ category d = (if String.eqb configured "error" then ts.Error else ts.Warning)
    ∧ ((length unused = length importReferences
        ∧ message d = "All imports are unused"
        ∧ related d = None)
       ∨ (length unused ≠ length importReferences
          ∧ message d = "Imports array contains unused imports"
          ∧ related d = Some (map (relatedInformationFor rawImportsExpression) unused))).
Proof.
  unfold checkNode.
  destruct (ts.isClassDeclaration node) eqn:Hclass; [simpl|done].
  destruct (getDirectiveMetadata _ _) as [metadata|] eqn:Hmeta; [|done].
  destruct (isStandalone metadata) eqn:Hstandalone; [simpl|done].
  destruct (rawImports metadata) as [raw|] eqn:Hraw; [|done].
  destruct (imports metadata) as [refs|] eqn:Himports; [|done].
  case_bool_decide as Hempty; [done|].
  destruct (getUsedDirectives _ _) as [dirs|] eqn:Hdirs; [|done].
  destruct (getUsedPipes _ _) as [pipes|] eqn:Hpipes; [|done].
  destruct (getUnusedSymbols _ _ _ _) as [[unused|]|] eqn:Hunused; [|done..].
  intros Hd. exists metadata, raw, refs, dirs, pipes, unused.
  repeat (split; [done|]).
  split; [by intros ->|].
  repeat (split; [done|]).
  cbn in Hd. case_bool_decide as Hlength; injection Hd as <-; simpl.
  - repeat (split; [done|]). by left.
  - repeat (split; [done|]). by right.
Qed.

(** C5: [checkNode] returns no diagnostic when the node is not a class
    declaration, when there is no metadata, when the component is not
    standalone, when the raw-imports expression or the import references are
    absent, when there are no import references, or when the used directives
    or the used pipes cannot be determined.  On each of these paths
    [checkNode] returns, with the answer "no diagnostic"; it does not
    throw. *)
Theorem checkNode_precondition_unmet (node : ts.Node) :
  ts.isClassDeclaration node = false
  ∨ getDirectiveMetadata checker node = None
  ∨ (∃ metadata,
       getDirectiveMetadata checker node = Some metadata
       ∧ (isStandalone metadata = false
          ∨ rawImports metadata = None
          ∨ imports metadata = None
          ∨ imports metadata = Some []))
  ∨ getUsedDirectives checker node = None
  ∨ getUsedPipes checker node = None ->
  checkNode this node = Returns None.
Proof.
  intros Hunmet. unfold checkNode.
  destruct (ts.isClassDeclaration node) eqn:Hclass; [simpl|done].
  destruct (getDirectiveMetadata _ _) as [metadata|] eqn:Hmeta; [|done].
  destruct (isStandalone metadata) eqn:Hstandalone; [simpl|done].
  destruct (rawImports metadata) as [raw|] eqn:Hraw; [|done].
  destruct (imports metadata) as [refs|] eqn:Himports; [|done].
  case_bool_decide as Hempty; [done|].
  destruct (getUsedDirectives _ _) as [dirs|] eqn:Hdirs; [|done].
  destruct (getUsedPipes _ _) as [pipes|] eqn:Hpipes; [|done].
  exfalso.
  destruct Hunmet as [H|[H|[(metadata' & Hmeta' & H)|[H|H]]]]; try congruence.
  assert (metadata' = metadata) as -> by congruence.
  destruct H as [H|[H|[H|H]]]; try congruence.
  rewrite Himports in H. injection H as ->. by apply Hempty.
Qed.

(** C4: with the unused references present, the diagnostic says "All imports
    are unused" and has no related entries when every import is unused, and
    says "Imports array contains unused imports" otherwise, with one related
    entry per unused reference, in order, at the reference's origin for
    diagnostics (falling back to its own name node) and with an empty
    message. *)
Theorem checkNode_diagnostic
    (component : ts.Node) (metadata : TypeCheckableDirectiveMeta)
    (rawImportsExpression : ts.Node) (importReferences : list Reference)
    (usedDirectives : list TypeCheckableDirectiveMeta) (usedPipes : list string)
    (unused : list Reference) :
  ts.isClassDeclaration component = true ->
  getDirectiveMetadata checker component = Some metadata ->
  isStandalone metadata = true ->
  rawImports metadata = Some rawImportsExpression ->
  imports metadata = Some importReferences ->
  importReferences ≠ [] ->
  getUsedDirectives checker component = Some usedDirectives ->
  getUsedPipes checker component = Some usedPipes ->
  getUnusedSymbols this metadata (usedDirectiveNodes usedDirectives)
    (list_to_set usedPipes) = Returns (Some unused) ->
  (length unused = length importReferences ->
   ∃ d, checkNode this component = Returns (Some d)
        ∧ message d = "All imports are unused"
        ∧ related d = None)
  ∧ (length unused ≠ length importReferences ->
     ∃ d, checkNode this component = Returns (Some d)
          ∧ message d = "Imports array contains unused imports"
          ∧ related d =
              Some (map (fun reference =>
                      makeRelatedInformation
                        (getOriginForDiagnostics reference rawImportsExpression
                           (name (node reference)))
                        "") unused)).
Proof.
  intros Hclass Hmeta Hstandalone Hraw Himports Hrefs Hdirs Hpipes Hunused.
  unfold checkNode.
  rewrite Hclass, Hmeta, Hstandalone, Hraw, Himports, Hdirs, Hpipes, Hunused. simpl.
  rewrite bool_decide_eq_false_2 by (by destruct importReferences).
  cbn. split; intros Hlength.
  - rewrite bool_decide_eq_true_2 by done. by eexists.
  - rewrite bool_decide_eq_false_2 by done. by eexists.
Qed.

(** C7: the severity of a diagnostic is error under the configuration
    "error", and warning under any other configuration that is not
    "suppress". *)
Theorem checkNode_severity (node : ts.Node) (d : Diagnostic) :
  checkNode this node = Returns (Some d) ->
  (configured = "error" -> category d = ts.Error)
  ∧ (configured ≠ "error" -> configured ≠ "suppress" -> category d = ts.Warning).
Proof.
  intros Hrun.
  apply checkNode_Some_inv in Hrun
    as (metadata & raw & refs & dirs & pipes & unused & _ & _ & _ & _ & _ & _ & _ & _ & _
        & _ & _ & -> & _).
  split.
  - by intros ->.
  - intros Herror _. by rewrite (proj2 (String.eqb_neq _ _) Herror).
Qed.

(** C8: a diagnostic saying "Imports array contains unused imports" has at
    least one related entry and fewer related entries than the component
    declares imports. *)
Theorem partial_diagnostic_related_count (node : ts.Node) (d : Diagnostic) :
  checkNode this node = Returns (Some d) ->
  message d = "Imports array contains unused imports" ->
  ∃ metadata importReferences entries,
    getDirectiveMetadata checker node = Some metadata
    ∧ imports metadata = Some importReferences
    ∧ related d = Some entries
    ∧ (1 ≤ length entries < length importReferences)%nat.
Proof.
  intros Hrun Hmessage.
  apply checkNode_Some_inv in Hrun
    as (metadata & raw & refs & dirs & pipes & unused & _ & Hmeta & _ & _ & Himports & _
        & _ & _ & Hunused & _ & _ & _ & [(_ & Hall & _)|(Hlength & _ & Hrelated)]).
  { rewrite Hall in Hmessage. discriminate Hmessage. }
  exists metadata, refs, (map (relatedInformationFor raw) unused).
  repeat (split; [done|]).
  rewrite length_map.
  apply getUnusedSymbols_Some in Hunused
    as (refs' & raw' & Himports' & _ & _ & Hsome & ->).
  assert (refs' = refs) as -> by congruence.
  pose proof (length_filter (flagged this (usedDirectiveNodes dirs) (list_to_set pipes) raw')
                refs).
  destruct (filter _ refs); [done|]. simpl in *. lia.
Qed.

(** C9: every diagnostic carries the code [UNUSED_STANDALONE_IMPORTS] and is
    anchored where [getDiagnosticNode] puts the raw-imports expression of the
    component, in the all-unused and in the partial variant alike. *)
Theorem checkNode_code_and_anchor (node : ts.Node) (d : Diagnostic) :
  checkNode this node = Returns (Some d) ->
  code d = UNUSED_STANDALONE_IMPORTS
  ∧ (message d = "All imports are unused"
     ∨ message d = "Imports array contains unused imports")
  ∧ ∃ metadata rawImportsExpression,
      getDirectiveMetadata checker node = Some metadata
      ∧ rawImports metadata = Some rawImportsExpression
      ∧ anchor d = getDiagnosticNode rawImportsExpression.
Proof.
  intros Hrun.
  apply checkNode_Some_inv in Hrun
    as (metadata & raw & refs & dirs & pipes & unused & _ & Hmeta & _ & Hraw & _ & _
        & _ & _ & _ & Hcode & Hanchor & _ & Hvariant).
  split; [done|]. split.
  - destruct Hvariant as [(_ & -> & _)|(_ & -> & _)]; [by left | by right].
  - by exists metadata, raw.
Qed.

(** C6: [shouldCheck] answers [true] exactly when the configuration is not
    "suppress" and the file has a named import of [Component] or a namespace
    import from [@angular/core]; the answer is a function of the
    configuration, the tracker's two answers and nothing else. *)
Theorem shouldCheck_iff (sourceFile : ts.Node) :
  shouldCheck this sourceFile = true
  <-> configured ≠ "suppress"
      ∧ (hasNamedImport (importedSymbolsTracker this) sourceFile "Component" "@angular/core" = true
         ∨ hasNamespaceImport (importedSymbolsTracker this) sourceFile "@angular/core" = true).
Proof.
  unfold shouldCheck.
  rewrite andb_true_iff, orb_true_iff, negb_true_iff.
  by rewrite String.eqb_neq.
Qed.

End CheckNode.

(** ** The rule at work on the example files *)

Example checkNode_some_unused :
  checkNode (Fixture.rule "warn") Fixture.cmp =
    Returns
      (Some (makeDiagnostic UNUSED_STANDALONE_IMPORTS
               (ts.nameOf Fixture.cmpImports Fixture.importsKey)
               "Imports array contains unused imports"
               (Some [makeRelatedInformation Fixture.idA "";
                      makeRelatedInformation Fixture.idC ""])
               ts.Warning)).
Proof. vm_compute. reflexivity. Qed.

Example checkNode_all_unused :
  checkNode (Fixture.ruleUsing [] "error") Fixture.cmp =
    Returns
      (Some (makeDiagnostic UNUSED_STANDALONE_IMPORTS
               (ts.nameOf Fixture.cmpImports Fixture.importsKey)
               "All imports are unused" None ts.Error)).
Proof. vm_compute. reflexivity. Qed.

Example checkNode_all_used :
  checkNode
    (Fixture.ruleUsing
       [Fixture.directive Fixture.refA; Fixture.directive Fixture.refB;
        Fixture.directive Fixture.refC] "warn")
    Fixture.cmp = Returns None.
Proof. vm_compute. reflexivity. Qed.

(** With [imports: [A, ...LOCALS]] the rule throws on [D] although [A] is
    unused. *)
Example checkNode_throws :
  checkNode Fixture.ruleOverLocals Fixture.cmp = Throws.
Proof. vm_compute. reflexivity. Qed.

Lemma checkNode_diagnostic_witness :
  ∃ d, checkNode (Fixture.rule "warn") Fixture.cmp = Returns (Some d)
       ∧ message d = "Imports array contains unused imports"
       ∧ related d = Some [makeRelatedInformation Fixture.idA "";
                           makeRelatedInformation Fixture.idC ""].
Proof.
  refine (proj2 (checkNode_diagnostic (Fixture.rule "warn") Fixture.cmp Fixture.cmpMeta
                   Fixture.cmpArray [Fixture.refA; Fixture.refB; Fixture.refC]
                   [Fixture.directive Fixture.refB] [] [Fixture.refA; Fixture.refC]
                   eq_refl eq_refl eq_refl eq_refl eq_refl _ eq_refl eq_refl _) _).
  - discriminate.
  - vm_compute. reflexivity.
  - simpl. lia.
Defined.

Lemma checkNode_precondition_unmet_witness :
  checkNode (Fixture.rule "warn") Fixture.classA = Returns None.
Proof.
  apply checkNode_precondition_unmet.
  right. right. left. exists (Fixture.directive Fixture.refA).
  split; [reflexivity|]. right. left. reflexivity.
Defined.

Lemma checkNode_severity_witness :
  ∃ d, checkNode (Fixture.rule "error") Fixture.cmp = Returns (Some d)
       ∧ category d = ts.Error.
Proof.
  eexists. split; [reflexivity|].
  apply (proj1 (checkNode_severity (Fixture.rule "error") Fixture.cmp _ eq_refl)).
  reflexivity.
Defined.

Lemma partial_diagnostic_related_count_witness :
  ∃ d metadata importReferences entries,
    checkNode (Fixture.rule "warn") Fixture.cmp = Returns (Some d)
    ∧ getDirectiveMetadata (templateTypeChecker (Fixture.rule "warn")) Fixture.cmp
      = Some metadata
    ∧ imports metadata = Some importReferences
    ∧ related d = Some entries
    ∧ (1 ≤ length entries < length importReferences)%nat.
Proof.
  eexists.
  destruct (partial_diagnostic_related_count (Fixture.rule "warn") Fixture.cmp _
              eq_refl eq_refl) as (metadata & importReferences & entries & H).
  exists metadata, importReferences, entries. split; [reflexivity | exact H].
Defined.

Lemma checkNode_code_and_anchor_witness :
  ∃ d, checkNode (Fixture.ruleUsing [] "warn") Fixture.cmp = Returns (Some d)
       ∧ code d = UNUSED_STANDALONE_IMPORTS
       ∧ anchor d = getDiagnosticNode Fixture.cmpArray.
Proof.
  eexists. split; [reflexivity|].
  destruct (checkNode_code_and_anchor (Fixture.ruleUsing [] "warn") Fixture.cmp _ eq_refl)
    as (Hcode & _ & _).
  split; [exact Hcode | reflexivity].
Defined.

(** ** Further properties of the rule *)

(** The key found by the walk of [getDiagnosticNode] is the key of a property
    assignment, and the walk from that assignment finds it again. *)
Lemma keyFrom_Some current key :
  keyFrom current = Some key ->
  ∃ assignment, ts.parent key = Some assignment ∧ keyFrom assignment = Some key.
Proof.
  induction current as [i s|i s p IH] using ts.Node_ind; simpl;
    destruct s as [| |modifiers|nm| |]; try done; try exact IH.
  - intros [= <-]. by eexists.
  - intros [= <-]. by eexists.
Qed.

(** X2: Anchoring is idempotent: the anchor of a diagnostic is its own anchor.  *)
Theorem getDiagnosticNode_idempotent (importsExpression : ts.Node) :
  getDiagnosticNode (getDiagnosticNode importsExpression)
  = getDiagnosticNode importsExpression.
Proof.
  unfold getDiagnosticNode at 2 3.
  destruct (ts.parent importsExpression) as [current|] eqn:Hparent.
  - destruct (keyFrom current) as [key|] eqn:Hkey; simpl.
    + apply keyFrom_Some in Hkey as (assignment & Hassignment & Hagain).
      unfold getDiagnosticNode. by rewrite Hassignment, Hagain.
    + unfold getDiagnosticNode. by rewrite Hparent, Hkey.
  - unfold getDiagnosticNode. by rewrite Hparent.
Qed.

Section Reports.

Context (this : UnusedStandaloneImportsRule) (component : ts.Node).
Context (metadata : TypeCheckableDirectiveMeta) (rawImportsExpression : ts.Node).
Context (importReferences : list Reference).
Context (usedDirectives : list TypeCheckableDirectiveMeta) (usedPipes : list string).

Hypothesis Hclass : ts.isClassDeclaration component = true.
Hypothesis Hmetadata : getDirectiveMetadata (templateTypeChecker this) component = Some metadata.
Hypothesis Hstandalone : isStandalone metadata = true.
Hypothesis HrawImports : rawImports metadata = Some rawImportsExpression.
Hypothesis Himports : imports metadata = Some importReferences.
Hypothesis Hdeclared : importReferences ≠ [].
Hypothesis HusedDirectives :
  getUsedDirectives (templateTypeChecker this) component = Some usedDirectives.
Hypothesis HusedPipes :
  getUsedPipes (templateTypeChecker this) component = Some usedPipes.

Local Notation "'flag'" :=
  (flagged this (usedDirectiveNodes usedDirectives) (list_to_set usedPipes)
     rawImportsExpression).
Local Notation "'halt'" :=
  (stuck this (usedDirectiveNodes usedDirectives) (list_to_set usedPipes)
     rawImportsExpression).

(** How [checkNode] ends once the preconditions hold. *)
Lemma checkNode_eq :
  checkNode this component =
    if decide (Exists halt importReferences) then Throws else
    match filter flag importReferences with
    | [] => Returns None
    | unused =>
        let category :=
          if String.eqb (unusedStandaloneImports (typeCheckingConfig this)) "error"
          then ts.Error else ts.Warning in
        if bool_decide (length unused = length importReferences) then
          Returns
            (Some (makeDiagnostic UNUSED_STANDALONE_IMPORTS
                     (getDiagnosticNode rawImportsExpression)
                     "All imports are unused" None category))
        else
          Returns
            (Some (makeDiagnostic UNUSED_STANDALONE_IMPORTS
                     (getDiagnosticNode rawImportsExpression)
                     "Imports array contains unused imports"
                     (Some (map (relatedInformationFor rawImportsExpression) unused))
                     category))
    end.
Proof.
  unfold checkNode.
  rewrite Hclass, Hmetadata, Hstandalone, HrawImports, Himports. simpl.
  rewrite bool_decide_eq_false_2 by (by destruct importReferences).
  rewrite HusedDirectives, HusedPipes, getUnusedSymbols_eq, Himports, HrawImports.
  unfold unusedAsSpecified.
  destruct (decide (Exists _ _)); [done|]. by destruct (filter _ _).
Qed.

Lemma none_stuck :
  ¬ Exists halt importReferences
  <-> ∀ reference, reference ∈ importReferences -> ¬ halt reference.
Proof.
  rewrite Exists_exists. split.
  - intros Hnone reference Hin Hhalt. apply Hnone. by exists reference.
  - intros Hnone (reference & Hin & Hhalt). by apply (Hnone reference).
Qed.

(** X3: a component that passes the preconditions gets the answer "no
    diagnostic" exactly when none of its declared imports is flagged and none
    is stuck. *)
Theorem checkNode_silent_iff :
  checkNode this component = Returns None
  <-> ∀ reference,
        reference ∈ importReferences -> ¬ flag reference ∧ ¬ halt reference.
Proof.
  pose proof (filter_nil_none flag importReferences) as Hnone.
  rewrite checkNode_eq.
  destruct (decide (Exists halt importReferences)) as [Hstuck|Hstuck].
  - split; [done|]. intros Hquiet.
    destruct (proj2 none_stuck (fun reference Hin => proj2 (Hquiet reference Hin)) Hstuck).
  - pose proof (proj1 none_stuck Hstuck) as Hfree.
    destruct (filter _ _) as [|first unused].
    + split; [|done]. intros _ reference Hin. split; [|by apply Hfree].
      by apply (proj1 Hnone).
    + cbv zeta. split; [by case_bool_decide|]. intros Hquiet.
      assert (first :: unused = []) as Hempty; [|done].
      apply Hnone. intros reference Hin. by apply Hquiet.
Qed.

(** X4: A component that passes the preconditions gets the diagnostic "All
    imports are unused" exactly when every declared import is flagged. *)
Theorem checkNode_all_unused_iff :
  (∃ d, checkNode this component = Returns (Some d)
        ∧ message d = "All imports are unused")
  <-> Forall flag importReferences.
Proof.
  pose proof (filter_length_all flag importReferences) as <-.
  rewrite checkNode_eq.
  destruct (decide (Exists halt importReferences)) as [Hstuck|Hstuck].
  { split; [by intros (d & ? & _)|]. intros Hall%filter_length_all. exfalso.
    apply Exists_exists in Hstuck as (reference & Hin & Hhalt).
    by apply (flagged_not_stuck _ _ _ _ reference
                (proj1 (Forall_forall _ _) Hall reference Hin)). }
  destruct (filter _ _) as [|first unused] eqn:Hfilter.
  - split.
    + by intros (d & Hnone & _).
    + destruct importReferences; [done | discriminate].
  - cbv zeta. case_bool_decide as Hlength; split; try done.
    + intros _. by eexists.
    + intros (d & [= <-] & Hmessage). discriminate Hmessage.
Qed.

(** X5: a component that passes the preconditions gets the diagnostic
    "Imports array contains unused imports" exactly when some declared import
    is flagged, some declared import is not, and none is stuck. *)
Theorem checkNode_some_unused_iff :
  (∃ d, checkNode this component = Returns (Some d)
        ∧ message d = "Imports array contains unused imports")
  <-> (∃ reference, reference ∈ importReferences ∧ flag reference)
      ∧ (∃ reference, reference ∈ importReferences ∧ ¬ flag reference)
      ∧ (∀ reference, reference ∈ importReferences -> ¬ halt reference).
Proof.
  pose proof (filter_nil_none flag importReferences) as Hnone.
  pose proof (filter_length_all flag importReferences) as Hall.
  rewrite checkNode_eq.
  destruct (decide (Exists halt importReferences)) as [Hstuck|Hstuck].
  { split; [by intros (d & ? & _)|]. intros (_ & _ & Hfree).
    destruct (proj2 none_stuck Hfree Hstuck). }
  pose proof (proj1 none_stuck Hstuck) as Hfree.
  destruct (filter _ _) as [|first unused] eqn:Hfilter.
  - split; [by intros (d & ? & _)|].
    intros [(reference & Hin & Hflag) _].
    by destruct (proj1 Hnone eq_refl reference Hin).
  - cbv zeta. case_bool_decide as Hlength; split.
    + intros (d & [= <-] & Hmessage). discriminate Hmessage.
    + intros (_ & (reference & Hin & Hflag) & _). destruct Hflag.
      by apply (proj1 (Forall_forall _ _) (proj1 Hall Hlength)).
    + intros _. split; [|split; [|done]].
      * exists first.
        assert (first ∈ filter flag importReferences) as [? ?]%list_elem_of_filter
          by (rewrite Hfilter; left).
        done.
      * apply Exists_exists, not_Forall_Exists; [apply _|].
        intros Hevery. by apply Hlength, Hall.
    + intros _. by eexists.
Qed.

(** X6: a standalone directive that is written in the array of a component
    that passes the preconditions, and that the template does not use, is
    never passed over: [checkNode] does not answer "no diagnostic", a
    diagnostic with related entries has the directive's entry among them, and
    a diagnostic is returned whenever no declared import is stuck. *)
Theorem literal_unused_directive_reported (reference : Reference)
    (dirMeta : TypeCheckableDirectiveMeta) :
  reference ∈ importReferences ->
  getDirectiveMetadata (templateTypeChecker this) (node reference) = Some dirMeta ->
  isStandalone dirMeta = true ->
  (∀ dir, dir ∈ usedDirectives -> ts.id (node (ref dir)) ≠ ts.id (node reference)) ->
  is_Some (getIdentityInExpression reference rawImportsExpression) ->
  checkNode this component ≠ Returns None
  ∧ (∀ d entries,
       checkNode this component = Returns (Some d) ->
       related d = Some entries ->
       relatedInformationFor rawImportsExpression reference ∈ entries)
  ∧ ((∀ other, other ∈ importReferences -> ¬ halt other) ->
     ∃ d, checkNode this component = Returns (Some d)).
Proof.
  intros Hin HdirMeta Hdirective Hunused [identity Hliteral].
  assert (flag reference) as Hflag.
  { unfold flagged. rewrite HdirMeta. split; [done|]. split.
    - unfold usedDirectiveNodes. rewrite elem_of_list_to_set, list_elem_of_fmap.
      intros (dir & Hid & Hdir). by apply (Hunused dir).
    - unfold isPotentialSharedReference. by rewrite Hliteral. }
  assert (reference ∈ filter flag importReferences) as Hfound
    by by apply list_elem_of_filter.
  rewrite checkNode_eq.
  destruct (decide (Exists halt importReferences)) as [Hstuck|Hstuck].
  { split; [done|]. split; [done|]. intros Hfree.
    destruct (proj2 none_stuck Hfree Hstuck). }
  destruct (filter _ _) as [|first unused]; [by apply elem_of_nil in Hfound|].
  cbv zeta. case_bool_decide; (split; [done|]); (split; [|by eexists]).
  - intros d entries [= <-] Hentries. discriminate Hentries.
  - intros d entries [= <-] Hentries. cbn [related] in Hentries.
    injection Hentries as <-. apply list_elem_of_In.
    apply (in_map (relatedInformationFor rawImportsExpression) (first :: unused)).
    by apply list_elem_of_In.
Qed.

End Reports.

(** [getUnusedSymbols] asks the rule for its template type checker only. *)
Lemma getUnusedSymbols_checker this this' metadata usedDirectives usedPipes :
  templateTypeChecker this' = templateTypeChecker this ->
  getUnusedSymbols this' metadata usedDirectives usedPipes
  = getUnusedSymbols this metadata usedDirectives usedPipes.
Proof.
  destruct this as [checker config tracker], this' as [checker' config' tracker'].
  simpl. by intros ->.
Qed.

(** X7: The configuration decides the severity and nothing else, and the
    tracker of imported symbols is not asked: two rules over the same template
    type checker end alike on the same node, with the same diagnostic up to
    its severity.  In particular [checkNode] reports under "suppress" as well;
    only [shouldCheck] looks at that setting. *)
Theorem checkNode_configuration_only_severity
    (this this' : UnusedStandaloneImportsRule) (component : ts.Node) :
  templateTypeChecker this' = templateTypeChecker this ->
  checkNode this' component =
    fmap (M := Outcome)
      (fmap (M := option)
         (fun d =>
            makeDiagnostic (code d) (anchor d) (message d) (related d)
              (if String.eqb (unusedStandaloneImports (typeCheckingConfig this')) "error"
               then ts.Error else ts.Warning)))
      (checkNode this component).
Proof.
  intros Hchecker. unfold checkNode. rewrite Hchecker.
  destruct (ts.isClassDeclaration component); [simpl|done].
  destruct (getDirectiveMetadata _ _) as [metadata|]; [|done].
  destruct (isStandalone metadata); [simpl|done].
  destruct (rawImports metadata) as [raw|]; [|done].
  destruct (imports metadata) as [refs|]; [|done].
  case_bool_decide; [done|].
  destruct (getUsedDirectives _ _) as [dirs|]; [|done].
  destruct (getUsedPipes _ _) as [pipes|]; [|done].
  rewrite (getUnusedSymbols_checker this this' _ _ _ Hchecker).
  destruct (getUnusedSymbols _ _ _ _) as [[unused|]|]; [|done..].
  cbn. by case_bool_decide.
Qed.

Section NeverFlagged.

Context (this : UnusedStandaloneImportsRule) (metadata : TypeCheckableDirectiveMeta).
Context (unused : list Reference) (reference : Reference).

(** X8: What the template uses is never among the unused references: neither a
    class with directive metadata whose declaration is the declaration of a
    used directive, nor a class without directive metadata whose pipe name is
    a used pipe name, whichever class declares that pipe. *)
Theorem used_import_never_flagged
    (usedDirectives : list TypeCheckableDirectiveMeta) (usedPipes : list string) :
  getUnusedSymbols this metadata (usedDirectiveNodes usedDirectives)
    (list_to_set usedPipes) = Returns (Some unused) ->
  (is_Some (getDirectiveMetadata (templateTypeChecker this) (node reference))
   ∧ ∃ dir, dir ∈ usedDirectives ∧ ts.id (node (ref dir)) = ts.id (node reference))
  ∨ (getDirectiveMetadata (templateTypeChecker this) (node reference) = None
     ∧ ∃ pipeMeta,
         getPipeMetadata (templateTypeChecker this) (node reference) = Some pipeMeta
         ∧ pipe_name pipeMeta ∈ usedPipes) ->
  reference ∉ unused.
Proof.
  intros (refs & raw & _ & _ & _ & _ & ->)%getUnusedSymbols_Some Hused Hfound.
  apply list_elem_of_filter in Hfound as [Hflag _]. unfold flagged in Hflag.
  destruct Hused as [([dirMeta HdirMeta] & dir & Hdir & Hid)
                    |(HdirMeta & pipeMeta & HpipeMeta & Hname)].
  - rewrite HdirMeta in Hflag. destruct Hflag as (_ & Hfresh & _).
    apply Hfresh. unfold usedDirectiveNodes.
    rewrite elem_of_list_to_set, <- Hid. apply list_elem_of_In.
    apply (in_map (fun dir => ts.id (node (ref dir))) usedDirectives dir).
    by apply list_elem_of_In.
  - rewrite HdirMeta, HpipeMeta in Hflag. destruct Hflag as (_ & Hfresh & _).
    apply Hfresh. by rewrite elem_of_list_to_set.
Qed.

(** X9: A reference that is not written in the array itself is never among the
    unused references when it has no identity node in the file, when no
    variable statement encloses that node, or when the nearest variable
    statement enclosing it is exported. *)
Theorem shared_reference_never_flagged
    (usedDirectives : gset ts.NodeId) (usedPipes : gset string)
    (rawImportsExpression : ts.Node) :
  rawImports metadata = Some rawImportsExpression ->
  getUnusedSymbols this metadata usedDirectives usedPipes = Returns (Some unused) ->
  getIdentityInExpression reference rawImportsExpression = None ->
  getIdentityIn reference (ts.getSourceFile rawImportsExpression) = None
  ∨ (∃ origin,
       getIdentityIn reference (ts.getSourceFile rawImportsExpression) = Some origin
       ∧ (absent ts.isVariableStatement (ts.enclosing origin)
          ∨ ∃ statement ms,
              nearest ts.isVariableStatement (ts.enclosing origin) statement
              ∧ ts.syntax statement = ts.VariableStatement (Some ms)
              ∧ ts.ExportKeyword ∈ ms)) ->
  reference ∉ unused.
Proof.
  intros Hraw (refs & raw & _ & Hraw' & _ & _ & ->)%getUnusedSymbols_Some
    Hliteral Horigin Hfound.
  assert (raw = rawImportsExpression) as -> by congruence.
  apply list_elem_of_filter in Hfound as [Hflag _].
  assert (isPotentialSharedReference reference rawImportsExpression ≠ Returns false)
    as Hshared.
  { unfold isPotentialSharedReference. rewrite Hliteral.
    destruct Horigin as [->|(origin & -> & Hchain)]; [done|].
    rewrite sharedFrom_find.
    destruct Hchain as [Habsent|(statement & ms & Hnear & Hsyntax & Hexport)].
    - by rewrite (find_absent _ _ Habsent).
    - rewrite (find_nearest _ _ _ Hnear), Hsyntax.
      rewrite (proj2 (hasExportModifier_carries (Some ms))); [done|]. by exists ms. }
  unfold flagged in Hflag.
  destruct (getDirectiveMetadata _ _); [by destruct Hflag as (_ & _ & ?)|].
  destruct (getPipeMetadata _ _); [by destruct Hflag as (_ & _ & ?)|done].
Qed.

End NeverFlagged.

(** *** On the example files *)

Lemma literals_not_stuck usedDirectives reference :
  reference ∈ [Fixture.refA; Fixture.refB; Fixture.refC] ->
  ¬ stuck (Fixture.ruleUsing usedDirectives "warn")
      (usedDirectiveNodes usedDirectives) (list_to_set []) Fixture.cmpArray reference.
Proof.
  intros Hin%list_elem_of_In. unfold stuck.
  destruct Hin as [<-|[<-|[<-|[]]]]; intros (_ & _ & Hthrows); discriminate Hthrows.
Defined.

Lemma checkNode_silent_iff_witness :
  checkNode
    (Fixture.ruleUsing
       [Fixture.directive Fixture.refA; Fixture.directive Fixture.refB;
        Fixture.directive Fixture.refC] "warn")
    Fixture.cmp = Returns None
  <-> ∀ reference,
        reference ∈ [Fixture.refA; Fixture.refB; Fixture.refC] ->
        ¬ flagged
            (Fixture.ruleUsing
               [Fixture.directive Fixture.refA; Fixture.directive Fixture.refB;
                Fixture.directive Fixture.refC] "warn")
            (usedDirectiveNodes
               [Fixture.directive Fixture.refA; Fixture.directive Fixture.refB;
                Fixture.directive Fixture.refC])
            (list_to_set []) Fixture.cmpArray reference
        ∧ ¬ stuck
            (Fixture.ruleUsing
               [Fixture.directive Fixture.refA; Fixture.directive Fixture.refB;
                Fixture.directive Fixture.refC] "warn")
            (usedDirectiveNodes
               [Fixture.directive Fixture.refA; Fixture.directive Fixture.refB;
                Fixture.directive Fixture.refC])
            (list_to_set []) Fixture.cmpArray reference.
Proof.
  apply (checkNode_silent_iff _ Fixture.cmp Fixture.cmpMeta Fixture.cmpArray
           [Fixture.refA; Fixture.refB; Fixture.refC]
           [Fixture.directive Fixture.refA; Fixture.directive Fixture.refB;
            Fixture.directive Fixture.refC] []);
    try reflexivity.
  discriminate.
Defined.

Lemma checkNode_all_unused_iff_witness :
  (∃ d, checkNode (Fixture.ruleUsing [] "error") Fixture.cmp = Returns (Some d)
        ∧ message d = "All imports are unused")
  <-> Forall (flagged (Fixture.ruleUsing [] "error") (usedDirectiveNodes [])
                (list_to_set []) Fixture.cmpArray)
        [Fixture.refA; Fixture.refB; Fixture.refC].
Proof.
  apply (checkNode_all_unused_iff _ Fixture.cmp Fixture.cmpMeta Fixture.cmpArray
           [Fixture.refA; Fixture.refB; Fixture.refC] [] []);
    try reflexivity.
  discriminate.
Defined.

Lemma checkNode_some_unused_iff_witness :
  (∃ d, checkNode (Fixture.rule "warn") Fixture.cmp = Returns (Some d)
        ∧ message d = "Imports array contains unused imports")
  <-> (∃ reference,
         reference ∈ [Fixture.refA; Fixture.refB; Fixture.refC]
         ∧ flagged (Fixture.rule "warn")
             (usedDirectiveNodes [Fixture.directive Fixture.refB])
             (list_to_set []) Fixture.cmpArray reference)
      ∧ (∃ reference,
           reference ∈ [Fixture.refA; Fixture.refB; Fixture.refC]
           ∧ ¬ flagged (Fixture.rule "warn")
                 (usedDirectiveNodes [Fixture.directive Fixture.refB])
                 (list_to_set []) Fixture.cmpArray reference)
      ∧ (∀ reference,
           reference ∈ [Fixture.refA; Fixture.refB; Fixture.refC] ->
           ¬ stuck (Fixture.rule "warn")
               (usedDirectiveNodes [Fixture.directive Fixture.refB])
               (list_to_set []) Fixture.cmpArray reference).
Proof.
  apply (checkNode_some_unused_iff _ Fixture.cmp Fixture.cmpMeta Fixture.cmpArray
           [Fixture.refA; Fixture.refB; Fixture.refC]
           [Fixture.directive Fixture.refB] []);
    try reflexivity.
  discriminate.
Defined.

Lemma literal_unused_directive_reported_witness :
  ∃ d, checkNode (Fixture.rule "warn") Fixture.cmp = Returns (Some d).
Proof.
  apply (literal_unused_directive_reported (Fixture.rule "warn") Fixture.cmp
           Fixture.cmpMeta Fixture.cmpArray
           [Fixture.refA; Fixture.refB; Fixture.refC]
           [Fixture.directive Fixture.refB] []
           eq_refl eq_refl eq_refl eq_refl eq_refl)
    with (reference := Fixture.refA) (dirMeta := Fixture.directive Fixture.refA).
  - discriminate.
  - reflexivity.
  - reflexivity.
  - left.
  - reflexivity.
  - reflexivity.
  - intros dir Hdir%list_elem_of_In. destruct Hdir as [<-|[]]. discriminate.
  - exists Fixture.idA. reflexivity.
  - apply literals_not_stuck.
Defined.

Lemma checkNode_configuration_only_severity_witness :
  checkNode (Fixture.rule "error") Fixture.cmp =
    fmap (M := Outcome)
      (fmap (M := option)
         (fun d => makeDiagnostic (code d) (anchor d) (message d) (related d) ts.Error))
      (checkNode (Fixture.rule "suppress") Fixture.cmp).
Proof.
  apply (checkNode_configuration_only_severity
           (Fixture.rule "suppress") (Fixture.rule "error") Fixture.cmp).
  reflexivity.
Defined.

Lemma used_import_never_flagged_witness :
  Fixture.refB ∉ [Fixture.refA; Fixture.refC].
Proof.
  apply (used_import_never_flagged (Fixture.rule "warn") Fixture.cmpMeta
           [Fixture.refA; Fixture.refC] Fixture.refB
           [Fixture.directive Fixture.refB] []).
  - vm_compute. reflexivity.
  - left. split.
    + exists (Fixture.directive Fixture.refB). reflexivity.
    + exists (Fixture.directive Fixture.refB). split; [left | reflexivity].
Defined.

Lemma shared_reference_never_flagged_witness :
  Fixture.refSharedB ∉ [Fixture.refA].
Proof.
  apply (shared_reference_never_flagged (Fixture.rule "warn") Fixture.spreadMeta
           [Fixture.refA] Fixture.refSharedB ∅ ∅ Fixture.cmpArray).
  - reflexivity.
  - vm_compute. reflexivity.
  - reflexivity.
  - right. exists Fixture.sharedB. split; [reflexivity|].
    right. exists Fixture.sharedStatement, [ts.ExportKeyword].
    split; [|split; [reflexivity | left]].
    exists [Fixture.sharedB; Fixture.sharedArray; Fixture.sharedDeclaration;
            Fixture.sharedList], [Fixture.file].
    split; [reflexivity|]. split; [repeat constructor | reflexivity].
Defined.
